(** * vc-attend: the attendance engine of [server.js]

    A shallow embedding of the voice-channel attendance tracker: the
    duration utilities, the [/voice-event] handler that mutates the
    process-wide [attendance] object, the leaderboard aggregation
    [calculateVCStats] and the inlined aggregation of the XLSX export.

    Conventions of the embedding.
    - A timestamp is the number of milliseconds since the epoch (what
      [new Date(iso)] evaluates to for the strings [toISOString] produces),
      an integer in [Z].
    - Numbers are integers in [Z]: every number the engine handles is a
      difference of timestamps, a floor of one, or a sum of those.
    - A field of a JSON body or of a stored event is [Some s] for a string
      and [None] when it is missing ([undefined]).
    - [attendance.active] and [attendance.stats] are only ever read and
      written by key, so they are finite maps; the local [stats] object of
      the aggregation is enumerated with [Object.entries], so it keeps its
      keys in the order JavaScript enumerates them.  User names are taken
      not to be names of properties every object inherits.
    - The clock reading [new Date()] of a request is an argument of the
      handler; saving and broadcasting the state are not modelled beyond
      the state itself. *)

From Stdlib Require Import ZArith List Ascii String Lia Sorted Permutation.
From stdpp Require Import base gmap strings list pretty.

Open Scope string_scope.
Open Scope Z_scope.

(** ** Host functions *)

(** [Number.prototype.toString] on an integer: decimal digits, with a
    leading minus sign for a negative number. *)
Definition toString (n : Z) : string := pretty n.

(** The filler of [padStart]: [n] characters, taken from [pad] repeated. *)
Fixpoint pad_fill (n : nat) (pad cur : string) : string :=
  match n with
  | O => EmptyString
  | S n' =>
      match cur with
      | String c cur' => String c (pad_fill n' pad cur')
      | EmptyString =>
          match pad with
          | String c pad' => String c (pad_fill n' pad pad')
          | EmptyString => EmptyString
          end
      end
  end.

(** [String.prototype.padStart(targetLength, padString)]. *)
Definition padStart (targetLength : nat) (padString s : string) : string :=
  if (targetLength <=? String.length s)%nat then s
  else pad_fill (targetLength - String.length s) padString padString +:+ s.

(** The collation rank of a character.  The only strings the engine
    compares are formatted durations, whose characters are the minus sign,
    the colon and the decimal digits; the root collation puts punctuation
    before digits and orders the digits by value.  Any other character is
    ranked after these by its code. *)
Definition collation_rank (c : ascii) : N :=
  if Ascii.eqb c "-"%char then 0
  else if Ascii.eqb c ":"%char then 1
  else if (48 <=? N_of_ascii c)%N && (N_of_ascii c <=? 57)%N
       then (N_of_ascii c - 46)%N
       else (N_of_ascii c + 12)%N.

Fixpoint collate (a b : string) : comparison :=
  match a, b with
  | EmptyString, EmptyString => Eq
  | EmptyString, String _ _ => Lt
  | String _ _, EmptyString => Gt
  | String x a', String y b' =>
      match N.compare (collation_rank x) (collation_rank y) with
      | Eq => collate a' b'
      | r => r
      end
  end.

(** [a.localeCompare(b)]: negative, zero or positive. *)
Definition localeCompare (a b : string) : Z :=
  match collate a b with
  | Lt => -1
  | Eq => 0
  | Gt => 1
  end.

(** [Array.prototype.sort(compareFn)], which is stable: an element moves
    behind another only when [compareFn] is positive on the pair. *)
Fixpoint sort_insert {A : Type} (compareFn : A -> A -> Z) (x : A) (l : list A)
  : list A :=
  match l with
  | [] => [x]
  | y :: l' =>
      if 0 <? compareFn x y then y :: sort_insert compareFn x l' else x :: l
  end.

Definition sort {A : Type} (compareFn : A -> A -> Z) (l : list A) : list A :=
  fold_right (sort_insert compareFn) [] l.

(** *** Objects enumerated with [Object.entries]

    An object used as a dictionary whose keys are later enumerated: the
    list holds the own properties in creation order. *)

Fixpoint obj_get {V : Type} (o : list (string * V)) (k : string) : option V :=
  match o with
  | [] => None
  | (k', v) :: o' => if String.eqb k' k then Some v else obj_get o' k
  end.

(** [o[k] = v]: an existing property keeps its place, a new one is added
    last. *)
Fixpoint obj_set {V : Type} (o : list (string * V)) (k : string) (v : V)
  : list (string * V) :=
  match o with
  | [] => [(k, v)]
  | (k', v') :: o' =>
      if String.eqb k' k then (k', v) :: o' else (k', v') :: obj_set o' k v
  end.

Definition digit_value (c : ascii) : option N :=
  if (48 <=? N_of_ascii c)%N && (N_of_ascii c <=? 57)%N
  then Some (N_of_ascii c - 48)%N else None.

Fixpoint digits_value (s : string) (acc : N) : option N :=
  match s with
  | EmptyString => Some acc
  | String c s' =>
      match digit_value c with
      | Some d => digits_value s' (10 * acc + d)%N
      | None => None
      end
  end.

(** A property key is an array index when it is the canonical decimal
    form of an integer below [2^32 - 1]. *)
Definition array_index (k : string) : option N :=
  match k with
  | EmptyString => None
  | String c rest =>
      if Ascii.eqb c "0"%char && negb (String.eqb rest EmptyString) then None
      else match digits_value k 0 with
           | Some n => if (n <? 4294967295)%N then Some n else None
           | None => None
           end
  end.

Definition index_entries {V : Type} (o : list (string * V))
  : list (N * (string * V)) :=
  omap (fun kv => match array_index (fst kv) with
                  | Some n => Some (n, kv)
                  | None => None
                  end) o.

Definition named_entries {V : Type} (o : list (string * V))
  : list (string * V) :=
  List.filter (fun kv => match array_index (fst kv) with
                         | Some _ => false
                         | None => true
                         end) o.

(** [Object.entries(o)]: array-index keys in ascending numeric order
    first, then the other keys in creation order. *)
Definition Object_entries {V : Type} (o : list (string * V))
  : list (string * V) :=
  map snd (sort (fun a b => Z.of_N (fst a) - Z.of_N (fst b)) (index_entries o))
  ++ named_entries o.

(** A number read from a property is falsy when the property is missing
    or holds zero. *)
Definition falsy (v : option Z) : bool :=
  match v with
  | None => true
  | Some n => n =? 0
  end.

(** The property key a value is coerced to: a missing value reads and
    writes the property named [undefined]. *)
Definition prop_key (v : option string) : string := default "undefined" v.

(** ** Duration utilities *)

Definition getSecondsDiff (startTime endTime : Z) : Z :=
  (endTime - startTime) / 1000.

Definition formatDuration (sec : Z) : string :=
  let h := sec / 3600 in
  let m := Z.rem sec 3600 / 60 in
  let s := Z.rem sec 60 in
  padStart 2 "0" (toString h) +:+ ":" +:+
  padStart 2 "0" (toString m) +:+ ":" +:+
  padStart 2 "0" (toString s).

(** ** The attendance state *)

Record Event := {
  type : option string;
  user : option string;
  channel : option string;
  time : Z
}.

Record Session := {
  session_channel : option string;
  joinedAt : Z
}.

Record Attendance := {
  history : list Event;
  active : gmap string Session;
  stats : gmap string Z
}.

(** [{ history: [], active: {}, stats: {} }] *)
Definition attendance0 : Attendance :=
  {| history := []; active := ∅; stats := ∅ |}.

(** ** The [/voice-event] handler *)

(** The JSON body of a request: [{ type, user, channel }]. *)
Record Body := {
  req_type : option string;
  req_user : option string;
  req_channel : option string
}.

(** The [leave] branch on [attendance.stats]. *)
Definition credit (user : string) (duration : Z) (stats : gmap string Z)
  : gmap string Z :=
  let stats1 := if falsy (stats !! user) then <[user := 0]> stats else stats in
  <[user := default 0 (stats1 !! user) + duration]> stats1.

(** [history.unshift(e); if (history.length > 100) history.pop();] *)
Definition record_event (e : Event) (history : list Event) : list Event :=
  let history1 := e :: history in
  if (100 <? length history1)%nat then removelast history1 else history1.

(** The handler, at the clock reading [timestamp]: the status sent to the
    caller and the new state (which is also what is broadcast and saved). *)
Definition voice_event (timestamp : Z) (body : Body) (attendance : Attendance)
  : Z * Attendance :=
  let key := prop_key (req_user body) in
  let '(active1, stats1) :=
    if bool_decide (req_type body = Some "join") then
      (<[key := {| session_channel := req_channel body;
                   joinedAt := timestamp |}]> (active attendance),
       stats attendance)
    else if bool_decide (req_type body = Some "leave") then
      (delete key (active attendance),
       match active attendance !! key with
       | Some session =>
           let duration := getSecondsDiff (joinedAt session) timestamp in
           credit key duration (stats attendance)
       | None => stats attendance
       end)
    else (active attendance, stats attendance) in
  (200,
   {| history :=
        record_event {| type := req_type body; user := req_user body;
                        channel := req_channel body; time := timestamp |}
                     (history attendance);
      active := active1;
      stats := stats1 |}).

(** The state after one processed event. *)
Definition process (attendance : Attendance) (ev : Z * Body) : Attendance :=
  snd (voice_event (fst ev) (snd ev) attendance).

(** The state after a sequence of processed events, oldest first. *)
Definition replay (evs : list (Z * Body)) (attendance : Attendance)
  : Attendance :=
  fold_left process evs attendance.

(** ** Leaderboards *)

Record Entry := {
  entry_user : string;
  entry_time : string
}.

(** The predicate of [history.find] for the leave event [h]. *)
Definition joins_for (h j : Event) : bool :=
  bool_decide (user j = user h) && bool_decide (type j = Some "join")
  && (time j <=? time h).

(** [if (!stats[k]) stats[k] = 0; stats[k] += seconds;] *)
Definition accumulate (k : string) (seconds : Z) (stats : list (string * Z))
  : list (string * Z) :=
  let stats1 := if falsy (obj_get stats k) then obj_set stats k 0 else stats in
  obj_set stats1 k (default 0 (obj_get stats1 k) + seconds).

(** One iteration of the loop of [calculateVCStats] over [history]. *)
Definition tally (history : list Event) (filterFn : option (Event -> bool))
  (stats : list (string * Z)) (h : Event) : list (string * Z) :=
  if bool_decide (type h = Some "leave")
     && match filterFn with
        | None => true
        | Some f => f h
        end
  then
    match List.find (joins_for h) history with
    | None => stats
    | Some join =>
        let seconds := getSecondsDiff (time join) (time h) in
        accumulate (prop_key (user h)) seconds stats
    end
  else stats.

Definition totals (history : list Event) (filterFn : option (Event -> bool))
  : list (string * Z) :=
  fold_left (tally history filterFn) history [].

Definition calculateVCStats (history : list Event)
  (filterFn : option (Event -> bool)) : list Entry :=
  sort (fun a b => localeCompare (entry_time b) (entry_time a))
       (map (fun kv => {| entry_user := fst kv;
                          entry_time := formatDuration (snd kv) |})
            (Object_entries (totals history filterFn))).

(** The window predicate [h => new Date(h.time) >= start]. *)
Definition since (start : Z) (h : Event) : bool := start <=? time h.



Definition leaderboard_all (attendance : Attendance) : list Entry :=
  calculateVCStats (history attendance) None.

(** ** XLSX export *)

Record Column := {
  header : string;
  key : string;
  width : Z
}.

Record Sheet := {
  columns : list Column;
  rows : list Entry
}.

(** One iteration of the loop of the export over [filteredHistory]. *)
Definition export_tally (filteredHistory : list Event)
  (stats : list (string * Z)) (h : Event) : list (string * Z) :=
  if bool_decide (type h = Some "leave") then
    match List.find (joins_for h) filteredHistory with
    | None => stats
    | Some join =>
        let seconds := getSecondsDiff (time join) (time h) in
        accumulate (prop_key (user h)) seconds stats
    end
  else stats.

(** The worksheet of [/export/xlsx/:type]. *)
Definition export_xlsx (type : string) (today weekStart : Z)
  (attendance : Attendance) : Sheet :=
  let filteredHistory :=
    if String.eqb type "daily" then
      List.filter (since today) (history attendance)
    else if String.eqb type "weekly" then
      List.filter (since weekStart) (history attendance)
    else history attendance in
  let stats := fold_left (export_tally filteredHistory) filteredHistory [] in
  {| columns := [ {| header := "User"; key := "user"; width := 30 |};
                  {| header := "VC Time"; key := "time"; width := 20 |} ];
     rows := map (fun kv => {| entry_user := fst kv;
                               entry_time := formatDuration (snd kv) |})
                 (Object_entries stats) |}.

(** ** The voice-state listener *)

(** What the listener reads of a voice state: the user name of the member
    (missing when the member is not cached), the id of the guild, the id
    of the channel ([None] for [null]: not in a voice channel) and the
    name of that channel when there is one. *)
Record VoiceState := {
  member_username : option string;
  guild_id : string;
  channelId : option string;
  channel_name : option string
}.

(** [id === variable], for an id that is a string or [null] and an
    environment variable that is a string or [undefined]. *)
Definition same_id (id variable : option string) : bool :=
  match id, variable with
  | Some a, Some b => String.eqb a b
  | _, _ => false
  end.

(** [name || fallback]: a missing or empty name gives the fallback. *)
Definition or_else (name : option string) (fallback : string) : string :=
  match name with
  | Some n => if String.eqb n "" then fallback else n
  | None => fallback
  end.

(** The [VoiceStateUpdate] listener: the bodies it posts to
    [/voice-event], in order.  [GUILD_ID] and [VOICE_CHANNEL_ID] are the
    environment variables. *)
Definition onVoiceStateUpdate (GUILD_ID VOICE_CHANNEL_ID : option string)
  (oldState newState : VoiceState) : list Body :=
  match member_username newState with
  | None => []
  | Some user =>
      if String.eqb user "" then []
      else
        let guildId := guild_id newState in
        let joinedChannel := channelId newState in
        let leftChannel := channelId oldState in
        if negb (same_id (Some guildId) GUILD_ID) then []
        else
          ((if same_id joinedChannel VOICE_CHANNEL_ID
               && negb (same_id leftChannel VOICE_CHANNEL_ID)
            then [ {| req_type := Some "join"; req_user := Some user;
                      req_channel :=
                        Some (or_else (channel_name newState) "VC") |} ]
            else [])
           ++
           (if same_id leftChannel VOICE_CHANNEL_ID
               && negb (same_id joinedChannel VOICE_CHANNEL_ID)
            then [ {| req_type := Some "leave"; req_user := Some user;
                      req_channel :=
                        Some (or_else (channel_name oldState) "VC") |} ]
            else []))%list
  end.

(** ** Notions used to state the properties *)





(** The window the export applies for a type, and the buffer it keeps. *)
Definition export_window (type : string) (today weekStart : Z) : option Z :=
  if String.eqb type "daily" then Some today
  else if String.eqb type "weekly" then Some weekStart
  else None.

Definition windowed (start : option Z) (history : list Event) : list Event :=
  match start with
  | Some s => List.filter (since s) history
  | None => history
  end.

(** The decimal digit [d], for [0 <= d < 10]. *)
Definition digit_char (d : Z) : ascii := ascii_of_N (48 + Z.to_N d).

(** A number below one hundred written with exactly two digits. *)
Definition two_digits (n : Z) : string :=
  String (digit_char (n / 10)) (String (digit_char (n mod 10)) EmptyString).

(** The request bodies the voice-state listener sends. *)
Definition join (u c : option string) : Body :=
  {| req_type := Some "join"; req_user := u; req_channel := c |}.

Definition leave (u c : option string) : Body :=
  {| req_type := Some "leave"; req_user := u; req_channel := c |}.

(** The event the handler records for a body. *)
Definition event_of (timestamp : Z) (body : Body) : Event :=
  {| type := req_type body; user := req_user body;
     channel := req_channel body; time := timestamp |}.

(** The property key under which a processed event touches [active] and
    [stats]. *)
Definition req_key (ev : Z * Body) : string := prop_key (req_user (snd ev)).

Definition is_join (ev : Z * Body) : bool :=
  bool_decide (req_type (snd ev) = Some "join").

Definition is_leave (ev : Z * Body) : bool :=
  bool_decide (req_type (snd ev) = Some "leave").



(** [stats[k]], a missing entry counting for zero. *)
Definition stat_of (k : string) (attendance : Attendance) : Z :=
  default 0 (stats attendance !! k).


(** The user key and the seconds that a leave event of the buffer adds to
    the totals of a leaderboard, when it adds any: the event is a leave,
    passes the window and has a join to pair with. *)
Definition credited (history : list Event) (filterFn : option (Event -> bool))
  (h : Event) : option (string * Z) :=
  if bool_decide (type h = Some "leave")
     && match filterFn with
        | None => true
        | Some f => f h
        end
  then option_map (fun j => (prop_key (user h),
                             getSecondsDiff (time j) (time h)))
                  (List.find (joins_for h) history)
  else None.



(** A row may stand before another in a leaderboard: its time does not
    collate below the other's. *)
Definition ranks_before (a b : Entry) : Prop :=
  localeCompare (entry_time b) (entry_time a) <= 0.

(** * Properties *)

(** ** Duration utilities *)

Lemma pretty_N_go_length (x : N) (s : string) :
  (String.length s <= String.length (pretty_N_go x s))%nat.
Proof.
  revert s. induction (N.lt_wf_0 x) as [x _ IH]. intros s.
  destruct (N.eq_dec x 0%N) as [->|Hx].
  - rewrite pretty_N_go_0. lia.
  - rewrite pretty_N_go_step by lia.
    specialize (IH (x `div` 10)%N).
    etrans; [|apply IH; apply N.div_lt; lia].
    simpl. lia.
Qed.

Lemma toString_length (n : Z) :
  10 <= n -> (2 <= String.length (toString n))%nat.
Proof.
  intros Hn. destruct n as [|p|p]; try lia.
  unfold toString, pretty, pretty_Z, pretty, pretty_positive, pretty, pretty_N.
  destruct (decide (N.pos p = 0%N)) as [|_]; [lia|].
  assert (0 < N.pos p `div` 10)%N by (apply N.div_str_pos; lia).
  rewrite !pretty_N_go_step by lia.
  etrans; [|apply pretty_N_go_length]. simpl. lia.
Qed.

Lemma padStart_long (n : nat) (pad s : string) :
  (n <= String.length s)%nat -> padStart n pad s = s.
Proof.
  intros H. unfold padStart.
  destruct (Nat.leb_spec n (String.length s)); [reflexivity | lia].
Qed.

(** Below sixty, padding the decimal form gives the two digits. *)
Lemma padStart_two_digits (n : Z) :
  0 <= n < 60 -> padStart 2 "0" (toString n) = two_digits n.
Proof.
  intros Hn.
  assert (Hall : forallb (fun k => String.eqb (padStart 2 "0" (toString (Z.of_nat k)))
                                              (two_digits (Z.of_nat k)))
                         (seq 0 60) = true) by (vm_compute; reflexivity).
  rewrite forallb_forall in Hall.
  specialize (Hall (Z.to_nat n)).
  rewrite Z2Nat.id in Hall by lia.
  apply String.eqb_eq, Hall, in_seq. lia.
Qed.

Lemma minutes_of_seconds (sec : Z) :
  0 <= sec -> Z.rem sec 3600 / 60 = (sec / 60) mod 60.
Proof.
  intros H. rewrite Z.rem_mod_nonneg by lia.
  change 3600 with (60 * 60).
  rewrite Z.rem_mul_r by lia.
  symmetry. apply Z.div_unique with (r := sec mod 60); [|lia].
  left. apply Z.mod_pos_bound. lia.
Qed.

(** C8: [formatDuration] renders a total of seconds as the hours, the
    minutes modulo 60 and the seconds modulo 60, separated by colons.  The
    minutes and the seconds are written with exactly two digits; the hours
    are the full decimal form of [sec / 3600], padded with one zero when
    below ten and never truncated.  In particular 3661, 59 and 0 seconds
    render as 01:01:01, 00:00:59 and 00:00:00, and a hundred hours as
    100:00:00. *)
Theorem formatDuration_spec (sec : Z) (Hsec : 0 <= sec) :
  formatDuration sec =
    (if sec / 3600 <? 10 then "0" +:+ toString (sec / 3600)
     else toString (sec / 3600))
    +:+ ":" +:+ two_digits ((sec / 60) mod 60)
    +:+ ":" +:+ two_digits (sec mod 60)
  /\ (2 <= String.length (padStart 2 "0" (toString (sec / 3600))))%nat
  /\ formatDuration 3661 = "01:01:01"
  /\ formatDuration 59 = "00:00:59"
  /\ formatDuration 0 = "00:00:00"
  /\ formatDuration 360000 = "100:00:00".
Proof.
  assert (Hh : 0 <= sec / 3600) by (apply Z.div_pos; lia).
  assert (Hhours : padStart 2 "0" (toString (sec / 3600)) =
                   if sec / 3600 <? 10 then "0" +:+ toString (sec / 3600)
                   else toString (sec / 3600)).
  { destruct (Z.ltb_spec (sec / 3600) 10) as [Hlt|Hge].
    - rewrite padStart_two_digits by lia.
      assert (Hall : forallb (fun k => String.eqb (two_digits (Z.of_nat k))
                                         ("0" +:+ toString (Z.of_nat k)))
                             (seq 0 10) = true) by (vm_compute; reflexivity).
      rewrite forallb_forall in Hall.
      specialize (Hall (Z.to_nat (sec / 3600))).
      rewrite Z2Nat.id in Hall by lia.
      apply String.eqb_eq, Hall, in_seq. lia.
    - apply padStart_long, toString_length. lia. }
  split; [|split; [|repeat split; vm_compute; reflexivity]].
  - unfold formatDuration. cbv zeta.
    rewrite Hhours, minutes_of_seconds by lia.
    rewrite (Z.rem_mod_nonneg sec 60) by lia.
    rewrite !padStart_two_digits by (apply Z.mod_pos_bound; lia).
    reflexivity.
  - rewrite Hhours.
    destruct (Z.ltb_spec (sec / 3600) 10) as [Hlt|Hge].
    + change ("0" +:+ toString (sec / 3600)) with (String "0" (toString (sec / 3600))).
      assert (Hall : forallb (fun k => (1 <=? String.length (toString (Z.of_nat k)))%nat)
                             (seq 0 10) = true) by (vm_compute; reflexivity).
      rewrite forallb_forall in Hall.
      specialize (Hall (Z.to_nat (sec / 3600))).
      rewrite Z2Nat.id in Hall by lia.
      simpl. apply le_n_S, Nat.leb_le, Hall, in_seq. lia.
    + apply toString_length. lia.
Qed.

Lemma formatDuration_spec_witness :
  0 <= 360000 /\
  formatDuration 360000 = "100" +:+ ":" +:+ "00" +:+ ":" +:+ "00".
Proof.
  split; [lia|].
  exact (proj1 (formatDuration_spec 360000 ltac:(lia))).
Defined.

(** ** The event processor *)

Lemma voice_event_status (timestamp : Z) (body : Body) (attendance : Attendance) :
  fst (voice_event timestamp body attendance) = 200.
Proof. unfold voice_event. repeat case_bool_decide; reflexivity. Qed.

Lemma voice_event_history (timestamp : Z) (body : Body) (attendance : Attendance) :
  history (snd (voice_event timestamp body attendance)) =
  record_event (event_of timestamp body) (history attendance).
Proof. unfold voice_event. repeat case_bool_decide; reflexivity. Qed.

Lemma voice_event_active (timestamp : Z) (body : Body) (attendance : Attendance) :
  active (snd (voice_event timestamp body attendance)) =
  if bool_decide (req_type body = Some "join") then
    <[prop_key (req_user body) :=
        {| session_channel := req_channel body; joinedAt := timestamp |}]>
      (active attendance)
  else if bool_decide (req_type body = Some "leave") then
    delete (prop_key (req_user body)) (active attendance)
  else active attendance.
Proof. unfold voice_event. repeat case_bool_decide; reflexivity. Qed.

Lemma voice_event_stats (timestamp : Z) (body : Body) (attendance : Attendance) :
  stats (snd (voice_event timestamp body attendance)) =
  if bool_decide (req_type body = Some "join") then stats attendance
  else if bool_decide (req_type body = Some "leave") then
    match active attendance !! prop_key (req_user body) with
    | Some session =>
        credit (prop_key (req_user body))
               (getSecondsDiff (joinedAt session) timestamp) (stats attendance)
    | None => stats attendance
    end
  else stats attendance.
Proof. unfold voice_event. repeat case_bool_decide; reflexivity. Qed.

Lemma replay_snoc (evs : list (Z * Body)) (ev : Z * Body) (attendance : Attendance) :
  replay (evs ++ [ev]) attendance = process (replay evs attendance) ev.
Proof. unfold replay. rewrite fold_left_app. reflexivity. Qed.

Lemma record_event_length (e : Event) (h : list Event) :
  (length h <= 100)%nat -> (length (record_event e h) <= 100)%nat.
Proof.
  intros Hlen. unfold record_event.
  destruct (Nat.ltb_spec 100 (length (e :: h))) as [Hgt|Hle]; [|exact Hle].
  rewrite removelast_firstn_len, length_take. simpl in *. lia.
Qed.

(** C2: in a state whose history holds at most 100 events, processing an
    event puts exactly one new event at the front of the history; when the
    history was full, exactly its last (oldest) entry is dropped.  The
    bound of 100 is preserved and the new event is at index 0. *)
Theorem history_capped (attendance : Attendance) (timestamp : Z) (body : Body)
  (Hlen : (length (history attendance) <= 100)%nat) :
  let e := event_of timestamp body in
  let history' := history (snd (voice_event timestamp body attendance)) in
  ((length (history attendance) < 100)%nat -> history' = e :: history attendance)
  /\ (length (history attendance) = 100%nat ->
      exists kept oldest,
        history attendance = (kept ++ [oldest])%list /\ history' = e :: kept)
  /\ (length history' <= 100)%nat
  /\ history' !! 0%nat = Some e.
Proof.
  intros e history'. subst history'. rewrite voice_event_history. fold e.
  repeat split.
  - intros Hlt. unfold record_event.
    destruct (Nat.ltb_spec 100 (length (e :: history attendance))); simpl in *;
      [lia | reflexivity].
  - intros Hfull.
    destruct (exists_last (l := history attendance)) as (kept & oldest & Hh).
    { intros Hnil. rewrite Hnil in Hfull. discriminate. }
    exists kept, oldest. split; [exact Hh|].
    unfold record_event.
    destruct (Nat.ltb_spec 100 (length (e :: history attendance))); simpl in *;
      [|lia].
    rewrite Hh. change (removelast ((e :: kept) ++ [oldest])%list = e :: kept).
    apply removelast_last.
  - apply record_event_length, Hlen.
  - unfold record_event.
    destruct (Nat.ltb_spec 100 (length (e :: history attendance))); [|reflexivity].
    destruct (history attendance); [simpl in *; lia | reflexivity].
Qed.

Lemma history_capped_witness :
  (length (history attendance0) <= 100)%nat /\
  history (snd (voice_event 0 (join (Some "Alice") (Some "VC")) attendance0))
  !! 0%nat = Some (event_of 0 (join (Some "Alice") (Some "VC"))).
Proof.
  split; [simpl; lia|].
  exact (proj2 (proj2 (proj2
    (history_capped attendance0 0 (join (Some "Alice") (Some "VC"))
                    ltac:(simpl; lia))))).
Defined.




(** *** Cumulative totals *)

Lemma credit_lookup (k : string) (d : Z) (m : gmap string Z) :
  credit k d m !! k = Some (default 0 (m !! k) + d).
Proof.
  unfold credit. destruct (m !! k) as [v|] eqn:Hk; simpl.
  - destruct (Z.eqb_spec v 0) as [->|Hv].
    + rewrite !lookup_insert_eq. reflexivity.
    + rewrite lookup_insert_eq, Hk. reflexivity.
  - rewrite !lookup_insert_eq. reflexivity.
Qed.

Lemma credit_lookup_ne (k k' : string) (d : Z) (m : gmap string Z) :
  k <> k' -> credit k d m !! k' = m !! k'.
Proof.
  intros Hne. unfold credit.
  destruct (falsy (m !! k)); rewrite !lookup_insert_ne by exact Hne; reflexivity.
Qed.

(** An event that is neither a join nor a leave of user [k] leaves the
    session and the total of [k] alone. *)
Lemma process_other (k : string) (ev : Z * Body) (attendance : Attendance) :
  (req_key ev = k -> is_join ev = false /\ is_leave ev = false) ->
  active (process attendance ev) !! k = active attendance !! k
  /\ stats (process attendance ev) !! k = stats attendance !! k.
Proof.
  intros Hev. unfold process. rewrite voice_event_active, voice_event_stats.
  unfold is_join, is_leave, req_key in Hev.
  destruct (decide (prop_key (req_user ev.2) = k)) as [Heq|Hne].
  - destruct (Hev Heq) as [-> ->]. split; reflexivity.
  - case_bool_decide.
    + rewrite lookup_insert_ne by exact Hne. split; reflexivity.
    + case_bool_decide; [|split; reflexivity].
      rewrite lookup_delete_ne by exact Hne. split; [reflexivity|].
      destruct (active attendance !! prop_key (req_user ev.2)); [|reflexivity].
      apply credit_lookup_ne, Hne.
Qed.

Lemma replay_other (k : string) (evs : list (Z * Body)) (attendance : Attendance) :
  Forall (fun ev => req_key ev = k -> is_join ev = false /\ is_leave ev = false)
         evs ->
  active (replay evs attendance) !! k = active attendance !! k
  /\ stats (replay evs attendance) !! k = stats attendance !! k.
Proof.
  intros Hevs. induction evs as [|ev evs IH] using rev_ind.
  - split; reflexivity.
  - apply Forall_app in Hevs as [Hevs Hev]. apply Forall_inv in Hev.
    rewrite replay_snoc.
    destruct (process_other k ev (replay evs attendance) Hev) as [-> ->].
    exact (IH Hevs).
Qed.

(** What one processed event does to the total of user [k]. *)
Lemma process_stats (k : string) (ev : Z * Body) (attendance : Attendance) :
  (is_leave ev = true /\ req_key ev = k /\
   exists session,
     active attendance !! k = Some session /\
     stats (process attendance ev) !! k =
     Some (stat_of k attendance + getSecondsDiff (joinedAt session) (fst ev)))
  \/ stats (process attendance ev) !! k = stats attendance !! k.
Proof.
  unfold process. rewrite voice_event_stats. unfold is_leave, req_key.
  destruct (decide (req_type ev.2 = Some "join")) as [Hj|Hj];
    [rewrite (bool_decide_eq_true_2 _ Hj); right; reflexivity|].
  rewrite (bool_decide_eq_false_2 _ Hj).
  destruct (decide (req_type ev.2 = Some "leave")) as [Hl|Hl];
    [|rewrite (bool_decide_eq_false_2 _ Hl); right; reflexivity].
  rewrite (bool_decide_eq_true_2 _ Hl).
  destruct (active attendance !! prop_key (req_user ev.2)) as [session|] eqn:Hs;
    [|right; reflexivity].
  destruct (decide (prop_key (req_user ev.2) = k)) as [Heq|Hne].
  - left. subst k. repeat split. exists session. split; [exact Hs|].
    apply credit_lookup.
  - right. apply credit_lookup_ne, Hne.
Qed.







(** C6 (amended): an event whose [user] field is missing is not rejected.
    The handler answers 200, records the event (with its user missing) at
    the front of the history, and updates [active] and [stats] exactly as
    for a user named [undefined]. *)
Theorem missing_user_processed (attendance : Attendance) (timestamp : Z)
  (ty ch : option string) :
  let body := {| req_type := ty; req_user := None; req_channel := ch |} in
  let named := {| req_type := ty; req_user := Some "undefined";
                  req_channel := ch |} in
  let result := voice_event timestamp body attendance in
  fst result = 200
  /\ history (snd result) =
     record_event {| type := ty; user := None; channel := ch;
                     time := timestamp |} (history attendance)
  /\ active (snd result) = active (snd (voice_event timestamp named attendance))
  /\ stats (snd result) = stats (snd (voice_event timestamp named attendance)).
Proof.
  intros body named result. subst result.
  rewrite voice_event_status, voice_event_history.
  rewrite !voice_event_active, !voice_event_stats.
  repeat split; reflexivity.
Qed.

(** C6 as stated fails: a join without a user, sent to the empty state, is
    answered 200 and opens a session under the key [undefined]. *)
Lemma missing_user_not_rejected :
  let result := voice_event 0 (join None (Some "VC")) attendance0 in
  fst result = 200
  /\ active (snd result) !! "undefined" =
     Some {| session_channel := Some "VC"; joinedAt := 0 |}
  /\ snd result <> attendance0
  /\ ~ (fst result <> 200 /\ snd result = attendance0).
Proof.
  cbv zeta.
  assert (Hs : fst (voice_event 0 (join None (Some "VC")) attendance0) = 200)
    by apply voice_event_status.
  assert (Hh : history (snd (voice_event 0 (join None (Some "VC")) attendance0))
               <> history attendance0).
  { rewrite voice_event_history. discriminate. }
  split; [|split; [|split]].
  - exact Hs.
  - rewrite voice_event_active. apply lookup_insert_eq.
  - intros Heq. apply Hh. rewrite Heq. reflexivity.
  - intros [Hne _]. apply Hne, Hs.
Qed.

(** ** Leaderboards *)

Lemma tally_not_leave (H : list Event) (f : option (Event -> bool))
  (s : list (string * Z)) (h : Event) :
  type h <> Some "leave" -> tally H f s h = s.
Proof.
  intros Hty. unfold tally.
  rewrite (bool_decide_eq_false_2 _ Hty). reflexivity.
Qed.













(** C4: Alice joins at 00:00:00 and leaves at 00:05:00, then Bob's join is
    stamped 00:01:00 and his leave 00:02:00, all processed in that order
    from the empty state: the all-time leaderboard is Alice with 00:05:00,
    then Bob with 00:01:00. *)
Theorem alice_bob_leaderboard (c1 c2 c3 c4 : option string) :
  leaderboard_all
    (replay [(0, join (Some "Alice") c1); (300000, leave (Some "Alice") c2);
             (60000, join (Some "Bob") c3); (120000, leave (Some "Bob") c4)]
            attendance0)
  = [{| entry_user := "Alice"; entry_time := "00:05:00" |};
     {| entry_user := "Bob"; entry_time := "00:01:00" |}].
Proof. vm_compute. reflexivity. Qed.




(** C7 fails on the code.  The export runs its own copy of the aggregation
    and writes the rows in the order [Object.entries] gives, without the
    sort of [calculateVCStats]: for the scenario of Alice (00:05:00) and
    Bob (00:01:00) the sheet lists Bob first, the leaderboard Alice
    first. *)
Theorem export_rows_unsorted (today weekStart : Z) :
  let attendance :=
    replay [(0, join (Some "Alice") (Some "VC"));
            (300000, leave (Some "Alice") (Some "VC"));
            (60000, join (Some "Bob") (Some "VC"));
            (120000, leave (Some "Bob") (Some "VC"))] attendance0 in
  rows (export_xlsx "all" today weekStart attendance)
  = [{| entry_user := "Bob"; entry_time := "00:01:00" |};
     {| entry_user := "Alice"; entry_time := "00:05:00" |}]
  /\ leaderboard_all attendance
     = [{| entry_user := "Alice"; entry_time := "00:05:00" |};
        {| entry_user := "Bob"; entry_time := "00:01:00" |}]
  /\ map header (columns (export_xlsx "all" today weekStart attendance))
     = ["User"; "VC Time"].
Proof. vm_compute. repeat split; reflexivity. Qed.

(** With no window, the export runs the loop of [calculateVCStats]: the
    leaderboard is the rows of the sheet, sorted. *)
Lemma export_tally_tally (H : list Event) (s : list (string * Z)) (h : Event) :
  export_tally H s h = tally H None s h.
Proof. unfold export_tally, tally. rewrite andb_true_r. reflexivity. Qed.

Lemma leaderboard_all_sorts_export (today weekStart : Z) (attendance : Attendance) :
  leaderboard_all attendance
  = sort (fun a b => localeCompare (entry_time b) (entry_time a))
         (rows (export_xlsx "all" today weekStart attendance)).
Proof.
  unfold leaderboard_all, calculateVCStats, export_xlsx, totals.
  cbn [String.eqb Ascii.eqb Bool.eqb rows].
  do 3 f_equal.
  generalize (@nil (string * Z)) as s.
  generalize (history attendance) at 2 4 as l.
  induction l as [|h l IH]; intros s; [reflexivity|].
  cbn [fold_left]. rewrite export_tally_tally. apply IH.
Qed.




(** * Further properties of the engine *)

(** ** Elapsed seconds *)

(** X1: The sign of the elapsed seconds is the order of the two clock
    readings: flooring sends any step back in time, however small, to a
    negative count, and anything under a second forward to zero. *)
Theorem getSecondsDiff_sign (startTime endTime : Z) :
  (0 <= getSecondsDiff startTime endTime <-> startTime <= endTime)
  /\ (getSecondsDiff startTime endTime = 0 <-> 0 <= endTime - startTime < 1000)
  /\ (getSecondsDiff startTime endTime = -1
      <-> -1000 <= endTime - startTime < 0).
Proof.
  unfold getSecondsDiff.
  pose proof (Z.div_mod (endTime - startTime) 1000 ltac:(lia)) as Hdm.
  pose proof (Z.mod_pos_bound (endTime - startTime) 1000 ltac:(lia)) as Hb.
  repeat split; intros; lia.
Qed.

(** X2: Cutting an interval in two loses at most one second: the seconds of
    the two parts add up to the seconds of the whole, or to one less. *)
Theorem getSecondsDiff_split (a b c : Z) :
  getSecondsDiff a b + getSecondsDiff b c <= getSecondsDiff a c
  <= getSecondsDiff a b + getSecondsDiff b c + 1.
Proof.
  unfold getSecondsDiff.
  pose proof (Z.div_mod (b - a) 1000 ltac:(lia)).
  pose proof (Z.mod_pos_bound (b - a) 1000 ltac:(lia)).
  pose proof (Z.div_mod (c - b) 1000 ltac:(lia)).
  pose proof (Z.mod_pos_bound (c - b) 1000 ltac:(lia)).
  pose proof (Z.div_mod (c - a) 1000 ltac:(lia)).
  pose proof (Z.mod_pos_bound (c - a) 1000 ltac:(lia)).
  lia.
Qed.

(** ** Formatted durations *)

Lemma digit_value_pretty (d : N) :
  (d < 10)%N -> digit_value (pretty_N_char d) = Some d.
Proof.
  intros Hd.
  assert (Hall : forallb (fun k => match digit_value (pretty_N_char (N.of_nat k)) with
                                   | Some v => N.eqb v (N.of_nat k)
                                   | None => false
                                   end) (seq 0 10) = true)
    by (vm_compute; reflexivity).
  rewrite forallb_forall in Hall. specialize (Hall (N.to_nat d)).
  rewrite N2Nat.id in Hall.
  destruct (digit_value (pretty_N_char d)) as [v|].
  - f_equal. apply N.eqb_eq, Hall, in_seq. lia.
  - discriminate Hall. apply in_seq. lia.
Qed.

(** Reading back the digits the printer produced, in front of [s]. *)
Lemma digits_value_pretty_go (x : N) (s : string) :
  exists n : N, forall acc : N,
    digits_value (pretty_N_go x s) acc = digits_value s (acc * 10 ^ n + x)%N.
Proof.
  revert s. induction (N.lt_wf_0 x) as [x _ IH]. intros s.
  destruct (N.eq_dec x 0%N) as [->|Hx].
  - exists 0%N. intros acc. rewrite pretty_N_go_0. f_equal. cbn. lia.
  - rewrite pretty_N_go_step by lia.
    destruct (IH (x `div` 10)%N ltac:(apply N.div_lt; lia)
                 (String (pretty_N_char (x `mod` 10)) s)) as [n Hn].
    exists (n + 1)%N. intros acc. rewrite Hn. cbn [digits_value].
    rewrite digit_value_pretty by (apply N.mod_lt; lia).
    f_equal. rewrite N.pow_add_r.
    pose proof (N.div_mod x 10 ltac:(lia)). cbn. lia.
Qed.

Lemma digits_value_toString (n : Z) :
  0 <= n -> digits_value (toString n) 0 = Some (Z.to_N n).
Proof.
  intros Hn. destruct n as [|p|p]; [reflexivity| |lia].
  unfold toString, pretty, pretty_Z, pretty, pretty_positive, pretty, pretty_N.
  destruct (decide (N.pos p = 0%N)) as [|_]; [lia|].
  destruct (digits_value_pretty_go (N.pos p) "") as [k Hk].
  rewrite Hk. reflexivity.
Qed.

Lemma string_app_cons (c : ascii) (s t : string) :
  String c s +:+ t = String c (s +:+ t).
Proof. reflexivity. Qed.

Lemma string_app_nil (t : string) : "" +:+ t = t.
Proof. reflexivity. Qed.

Lemma string_length_app (s t : string) :
  String.length (s +:+ t) = (String.length s + String.length t)%nat.
Proof.
  induction s as [|c s IH]; [reflexivity|].
  rewrite string_app_cons. cbn [String.length]. rewrite IH. reflexivity.
Qed.

Lemma string_app_inj_tail (s1 s2 t1 t2 : string) :
  s1 +:+ t1 = s2 +:+ t2 -> String.length t1 = String.length t2 ->
  s1 = s2 /\ t1 = t2.
Proof.
  revert s2. induction s1 as [|c s1 IH]; intros [|c' s2] Heq Hlen;
    rewrite ?string_app_cons, ?string_app_nil in Heq.
  - split; [reflexivity | exact Heq].
  - subst t1. cbn [String.length] in Hlen.
    rewrite string_length_app in Hlen. lia.
  - subst t2. cbn [String.length] in Hlen.
    rewrite string_length_app in Hlen. lia.
  - injection Heq as -> Heq.
    destruct (IH s2 Heq Hlen) as [-> ->]. split; reflexivity.
Qed.

Lemma hours_field (h : Z) :
  0 <= h ->
  padStart 2 "0" (toString h)
  = if h <? 10 then "0" +:+ toString h else toString h.
Proof.
  intros Hh. destruct (Z.ltb_spec h 10) as [Hlt|Hge].
  - assert (Hall : forallb (fun k => String.eqb (padStart 2 "0" (toString (Z.of_nat k)))
                                       ("0" +:+ toString (Z.of_nat k)))
                           (seq 0 10) = true) by (vm_compute; reflexivity).
    rewrite forallb_forall in Hall. specialize (Hall (Z.to_nat h)).
    rewrite Z2Nat.id in Hall by lia.
    apply String.eqb_eq, Hall, in_seq. lia.
  - apply padStart_long, toString_length. lia.
Qed.

Lemma hours_field_two_digits (h : Z) :
  0 <= h < 100 -> padStart 2 "0" (toString h) = two_digits h.
Proof.
  intros Hh.
  assert (Hall : forallb (fun k => String.eqb (padStart 2 "0" (toString (Z.of_nat k)))
                                              (two_digits (Z.of_nat k)))
                         (seq 0 100) = true) by (vm_compute; reflexivity).
  rewrite forallb_forall in Hall. specialize (Hall (Z.to_nat h)).
  rewrite Z2Nat.id in Hall by lia.
  apply String.eqb_eq, Hall, in_seq. lia.
Qed.

Lemma formatDuration_nonneg (sec : Z) :
  0 <= sec ->
  formatDuration sec
  = padStart 2 "0" (toString (sec / 3600))
    +:+ ":" +:+ two_digits ((sec / 60) mod 60)
    +:+ ":" +:+ two_digits (sec mod 60).
Proof.
  intros Hsec. unfold formatDuration. cbv zeta.
  rewrite minutes_of_seconds by lia.
  rewrite (Z.rem_mod_nonneg sec 60) by lia.
  rewrite !(padStart_two_digits (_ mod 60)) by (apply Z.mod_pos_bound; lia).
  reflexivity.
Qed.

Lemma seconds_decompose (sec : Z) :
  sec = 3600 * (sec / 3600) + 60 * ((sec / 60) mod 60) + sec mod 60.
Proof.
  pose proof (Z.div_mod sec 60 ltac:(lia)).
  pose proof (Z.div_mod (sec / 60) 60 ltac:(lia)).
  assert (sec / 60 / 60 = sec / 3600) by (rewrite Z.div_div by lia; reflexivity).
  lia.
Qed.

Lemma two_digits_inj (m n : Z) :
  0 <= m < 100 -> 0 <= n < 100 -> two_digits m = two_digits n -> m = n.
Proof.
  intros Hm Hn Heq. unfold two_digits, digit_char in Heq.
  injection Heq as H1 H2.
  assert (Hd : forall x y, 0 <= x < 10 -> 0 <= y < 10 ->
                 ascii_of_N (48 + Z.to_N x) = ascii_of_N (48 + Z.to_N y) -> x = y).
  { intros x y Hx Hy Hxy. apply (f_equal N_of_ascii) in Hxy.
    rewrite !N_ascii_embedding in Hxy by lia. lia. }
  pose proof (Z.div_mod m 10 ltac:(lia)).
  pose proof (Z.div_mod n 10 ltac:(lia)).
  pose proof (Z.mod_pos_bound m 10 ltac:(lia)).
  pose proof (Z.mod_pos_bound n 10 ltac:(lia)).
  apply Hd in H1; [|lia|lia]. apply Hd in H2; [|lia|lia]. lia.
Qed.

(** X3: Formatting loses nothing on totals that are not negative: two
    different totals never render as the same text. *)
Theorem formatDuration_inj (a b : Z) (Ha : 0 <= a) (Hb : 0 <= b) :
  formatDuration a = formatDuration b -> a = b.
Proof.
  intros Heq. rewrite !formatDuration_nonneg in Heq by lia.
  apply string_app_inj_tail in Heq as [Hh Ht]; [|reflexivity].
  cbn in Ht. injection Ht as Hm1 Hm2 Hs1 Hs2.
  assert (Hm : (a / 60) mod 60 = (b / 60) mod 60).
  { apply two_digits_inj; unfold two_digits;
      [pose proof (Z.mod_pos_bound (a / 60) 60); lia
      |pose proof (Z.mod_pos_bound (b / 60) 60); lia
      |congruence]. }
  assert (Hs : a mod 60 = b mod 60).
  { apply two_digits_inj; unfold two_digits;
      [pose proof (Z.mod_pos_bound a 60); lia
      |pose proof (Z.mod_pos_bound b 60); lia
      |congruence]. }
  assert (Hha : 0 <= a / 3600) by (apply Z.div_pos; lia).
  assert (Hhb : 0 <= b / 3600) by (apply Z.div_pos; lia).
  assert (Hval : forall h, 0 <= h ->
            digits_value (padStart 2 "0" (toString h)) 0 = Some (Z.to_N h)).
  { intros h Hh0. rewrite hours_field by lia.
    destruct (h <? 10); [|apply digits_value_toString; lia].
    change (digits_value ("0" +:+ toString h) 0)
      with (digits_value (toString h) 0).
    apply digits_value_toString. lia. }
  apply (f_equal (fun s => digits_value s 0)) in Hh.
  rewrite !Hval in Hh by lia. injection Hh as Hh.
  rewrite (seconds_decompose a), (seconds_decompose b). lia.
Qed.

Lemma formatDuration_inj_witness :
  0 <= 3661 /\ 0 <= 3661 /\ 3661 = 3661.
Proof.
  split; [lia|]. split; [lia|].
  apply (formatDuration_inj 3661 3661); [lia | lia | reflexivity].
Defined.

(** *** How formatted durations compare *)

Lemma collate_two_digits (x y : Z) (r r' : string) :
  0 <= x < 100 -> 0 <= y < 100 ->
  collate (two_digits x +:+ r) (two_digits y +:+ r')
  = match x ?= y with
    | Eq => collate r r'
    | c => c
    end.
Proof.
  intros Hx Hy.
  set (cmp2 := fun a b : Z =>
         match N.compare (collation_rank (digit_char (a / 10)))
                         (collation_rank (digit_char (b / 10))) with
         | Eq => N.compare (collation_rank (digit_char (a mod 10)))
                           (collation_rank (digit_char (b mod 10)))
         | c => c
         end).
  assert (Hall : forallb (fun a => forallb (fun b =>
                    match cmp2 (Z.of_nat a) (Z.of_nat b),
                          (Z.of_nat a ?= Z.of_nat b) with
                    | Eq, Eq | Lt, Lt | Gt, Gt => true
                    | _, _ => false
                    end) (seq 0 100)) (seq 0 100) = true)
    by (vm_compute; reflexivity).
  rewrite forallb_forall in Hall.
  specialize (Hall (Z.to_nat x) ltac:(apply in_seq; lia)).
  rewrite forallb_forall in Hall.
  specialize (Hall (Z.to_nat y) ltac:(apply in_seq; lia)).
  rewrite !Z2Nat.id in Hall by lia.
  unfold two_digits. rewrite !string_app_cons, !string_app_nil.
  cbn [collate]. subst cmp2. cbv beta in Hall.
  destruct (N.compare (collation_rank (digit_char (x / 10)))
                      (collation_rank (digit_char (y / 10))));
    [destruct (N.compare (collation_rank (digit_char (x mod 10)))
                         (collation_rank (digit_char (y mod 10))))|..];
    destruct (x ?= y); try discriminate Hall; reflexivity.
Qed.

Lemma collate_colon (r r' : string) :
  collate (":" +:+ r) (":" +:+ r') = collate r r'.
Proof. reflexivity. Qed.

Lemma compare_seconds (a b : Z) :
  match a / 3600 ?= b / 3600 with
  | Eq => match (a / 60) mod 60 ?= (b / 60) mod 60 with
          | Eq => a mod 60 ?= b mod 60
          | c => c
          end
  | c => c
  end = (a ?= b).
Proof.
  pose proof (seconds_decompose a) as Ha.
  pose proof (seconds_decompose b) as Hb.
  pose proof (Z.mod_pos_bound (a / 60) 60 ltac:(lia)).
  pose proof (Z.mod_pos_bound (b / 60) 60 ltac:(lia)).
  pose proof (Z.mod_pos_bound a 60 ltac:(lia)).
  pose proof (Z.mod_pos_bound b 60 ltac:(lia)).
  symmetry.
  destruct (Z.compare_spec (a / 3600) (b / 3600));
    [destruct (Z.compare_spec ((a / 60) mod 60) ((b / 60) mod 60));
       [destruct (Z.compare_spec (a mod 60) (b mod 60))|..]|..];
    first [apply Z.compare_eq_iff | apply Z.compare_lt_iff
          | apply Z.compare_gt_iff]; lia.
Qed.

(** X4: Below a hundred hours the text order is the numeric order: comparing
    two formatted totals gives the sign of the difference of the totals,
    so the leaderboard's sort ranks such totals by duration. *)
Theorem localeCompare_formatDuration (a b : Z)
  (Ha : 0 <= a < 360000) (Hb : 0 <= b < 360000) :
  localeCompare (formatDuration a) (formatDuration b) = Z.sgn (a - b).
Proof.
  assert (Hha : 0 <= a / 3600 < 100)
    by (split; [apply Z.div_pos | apply Z.div_lt_upper_bound]; lia).
  assert (Hhb : 0 <= b / 3600 < 100)
    by (split; [apply Z.div_pos | apply Z.div_lt_upper_bound]; lia).
  assert (Hcollate : collate (formatDuration a) (formatDuration b) = (a ?= b)).
  { pose proof (Z.mod_pos_bound (a / 60) 60 ltac:(lia)).
    pose proof (Z.mod_pos_bound (b / 60) 60 ltac:(lia)).
    pose proof (Z.mod_pos_bound a 60 ltac:(lia)).
    pose proof (Z.mod_pos_bound b 60 ltac:(lia)).
    rewrite !formatDuration_nonneg by lia.
    rewrite !hours_field_two_digits by lia.
    rewrite collate_two_digits by lia.
    rewrite collate_colon, collate_two_digits by lia.
    rewrite collate_colon.
    replace (two_digits (a mod 60)) with (two_digits (a mod 60) +:+ "")
      by (unfold two_digits; reflexivity).
    replace (two_digits (b mod 60)) with (two_digits (b mod 60) +:+ "")
      by (unfold two_digits; reflexivity).
    rewrite collate_two_digits by lia.
    rewrite <- (compare_seconds a b).
    destruct (a / 3600 ?= b / 3600); try reflexivity.
    destruct ((a / 60) mod 60 ?= (b / 60) mod 60); try reflexivity.
    destruct (a mod 60 ?= b mod 60); reflexivity. }
  unfold localeCompare. rewrite Hcollate.
  destruct (Z.compare_spec a b); lia.
Qed.

Lemma localeCompare_formatDuration_witness :
  0 <= 59 < 360000 /\ 0 <= 3661 < 360000
  /\ localeCompare (formatDuration 59) (formatDuration 3661) = -1.
Proof.
  split; [lia|]. split; [lia|].
  exact (localeCompare_formatDuration 59 3661 ltac:(lia) ltac:(lia)).
Defined.

Lemma toString_three_digits (h : Z) :
  100 <= h < 1000 ->
  toString h = two_digits (h / 10) +:+ String (digit_char (h mod 10)) "".
Proof.
  intros Hh.
  assert (Hall : forallb (fun k => String.eqb
                            (toString (Z.of_nat k))
                            (two_digits (Z.of_nat k / 10)
                             +:+ String (digit_char (Z.of_nat k mod 10)) ""))
                         (seq 100 900) = true) by (vm_compute; reflexivity).
  rewrite forallb_forall in Hall. specialize (Hall (Z.to_nat h)).
  rewrite Z2Nat.id in Hall by lia.
  apply String.eqb_eq, Hall, in_seq. lia.
Qed.

Lemma collate_digit_colon (d : Z) (r r' : string) :
  0 <= d < 10 -> collate (String (digit_char d) r) (":" +:+ r') = Gt.
Proof.
  intros Hd.
  assert (Hall : forallb (fun k => (1 <? collation_rank (digit_char (Z.of_nat k)))%N)
                         (seq 0 10) = true) by (vm_compute; reflexivity).
  rewrite forallb_forall in Hall. specialize (Hall (Z.to_nat d)).
  rewrite Z2Nat.id in Hall by lia.
  assert (Hrank : (1 < collation_rank (digit_char d))%N)
    by (apply N.ltb_lt, Hall, in_seq; lia).
  rewrite string_app_cons. cbn [collate].
  change (collation_rank ":") with 1%N.
  destruct (N.compare_spec (collation_rank (digit_char d)) 1); [lia|lia|reflexivity].
Qed.

Lemma localeCompare_three_digit_hours (a b : Z) :
  360000 <= a < 3600000 -> 0 <= b < 360000 ->
  localeCompare (formatDuration a) (formatDuration b)
  = if a / 36000 <? b / 3600 then -1 else 1.
Proof.
  intros Ha Hb.
  assert (Hha : 100 <= a / 3600 < 1000)
    by (split; [apply Z.div_le_lower_bound | apply Z.div_lt_upper_bound]; lia).
  assert (Hhb : 0 <= b / 3600 < 100)
    by (split; [apply Z.div_pos | apply Z.div_lt_upper_bound]; lia).
  assert (Hpre : a / 3600 / 10 = a / 36000)
    by (rewrite Z.div_div by lia; reflexivity).
  assert (Hx : 0 <= a / 3600 / 10 < 100)
    by (split; [apply Z.div_pos | apply Z.div_lt_upper_bound]; lia).
  pose proof (Z.mod_pos_bound (a / 3600) 10 ltac:(lia)) as Hd.
  unfold localeCompare.
  rewrite !formatDuration_nonneg by lia.
  rewrite (padStart_long 2 "0" (toString (a / 3600)))
    by (apply toString_length; lia).
  rewrite toString_three_digits by lia.
  rewrite hours_field_two_digits by lia.
  change ((two_digits (a / 3600 / 10)
           +:+ String (digit_char ((a / 3600) mod 10)) "")
          +:+ ":" +:+ two_digits ((a / 60) mod 60) +:+ ":" +:+ two_digits (a mod 60))
    with (two_digits (a / 3600 / 10)
          +:+ String (digit_char ((a / 3600) mod 10))
                (":" +:+ two_digits ((a / 60) mod 60)
                 +:+ ":" +:+ two_digits (a mod 60))).
  rewrite collate_two_digits by lia.
  rewrite collate_digit_colon by lia.
  rewrite Hpre.
  destruct (Z.compare_spec (a / 36000) (b / 3600)) as [Heq|Hlt|Hgt];
    destruct (Z.ltb_spec (a / 36000) (b / 3600)); try lia; reflexivity.
Qed.

(** X5: From a hundred hours on the text order is no longer the numeric one.
    A total of 100 to 999 hours is compared with a smaller total of under
    100 hours on their first two digits: it is ranked below the smaller
    total whenever the first two digits of its hours are less than the
    hours of the smaller one (100 hours against 11), and above it when
    they are greater. *)
Theorem localeCompare_hundred_hours (a b : Z)
  (Ha : 360000 <= a < 3600000) (Hb : 0 <= b < 360000) :
  b < a
  /\ (a / 36000 < b / 3600 ->
      localeCompare (formatDuration a) (formatDuration b) = -1)
  /\ (b / 3600 < a / 36000 ->
      localeCompare (formatDuration a) (formatDuration b) = 1).
Proof.
  split; [lia|].
  rewrite localeCompare_three_digit_hours by assumption.
  destruct (Z.ltb_spec (a / 36000) (b / 3600)); split; intros; lia || reflexivity.
Qed.

Lemma localeCompare_hundred_hours_witness :
  360000 <= 360000 < 3600000 /\ 0 <= 39600 < 360000
  /\ localeCompare (formatDuration 360000) (formatDuration 39600) = -1.
Proof.
  split; [lia|]. split; [lia|].
  apply (localeCompare_hundred_hours 360000 39600 ltac:(lia) ltac:(lia)).
  reflexivity.
Defined.

(** ** The totals of a leaderboard *)

Lemma obj_get_set (V : Type) (o : list (string * V)) (k k' : string) (v : V) :
  obj_get (obj_set o k v) k'
  = if String.eqb k k' then Some v else obj_get o k'.
Proof.
  induction o as [|[k0 v0] o IH]; cbn [obj_set obj_get].
  - destruct (String.eqb_spec k k'); reflexivity.
  - destruct (String.eqb_spec k0 k) as [->|Hne]; cbn [obj_get].
    + destruct (String.eqb_spec k k'); reflexivity.
    + rewrite IH. destruct (String.eqb_spec k0 k') as [->|Hne'];
        [|reflexivity].
      destruct (String.eqb_spec k k'); [congruence | reflexivity].
Qed.

Lemma obj_set_keys (V : Type) (o : list (string * V)) (k : string) (v : V) :
  map fst (obj_set o k v)
  = match obj_get o k with
    | Some _ => map fst o
    | None => (map fst o ++ [k])%list
    end.
Proof.
  induction o as [|[k0 v0] o IH]; cbn [obj_set obj_get map fst app];
    [reflexivity|].
  destruct (String.eqb_spec k0 k) as [->|Hne]; [reflexivity|].
  cbn [map fst]. rewrite IH. destruct (obj_get o k); reflexivity.
Qed.

Lemma obj_get_None_keys (V : Type) (o : list (string * V)) (k : string) :
  obj_get o k = None <-> ~ In k (map fst o).
Proof.
  induction o as [|[k0 v0] o IH]; cbn [obj_get map fst In]; [tauto|].
  destruct (String.eqb_spec k0 k) as [->|Hne].
  - split; [discriminate | intros H; exfalso; apply H; left; reflexivity].
  - rewrite IH. tauto.
Qed.

Lemma obj_get_In (V : Type) (o : list (string * V)) (k : string) (v : V) :
  NoDup (map fst o) -> (In (k, v) o <-> obj_get o k = Some v).
Proof.
  induction o as [|[k0 v0] o IH]; cbn [obj_get map fst In]; intros Hnd.
  - split; [tauto | discriminate].
  - apply NoDup_cons in Hnd as [Hfresh Hnd'].
    destruct (String.eqb_spec k0 k) as [->|Hne].
    + split.
      * intros [[= ->]|Hin]; [reflexivity|].
        exfalso. apply Hfresh. apply list_elem_of_In.
        apply (in_map fst) in Hin. exact Hin.
      * intros [= ->]. left. reflexivity.
    + rewrite <- IH by exact Hnd'. split.
      * intros [[= -> _]|Hin]; [congruence | exact Hin].
      * intros Hin. right. exact Hin.
Qed.


Lemma accumulate_keys (o : list (string * Z)) (k : string) (d : Z) :
  map fst (accumulate k d o)
  = match obj_get o k with
    | Some _ => map fst o
    | None => (map fst o ++ [k])%list
    end.
Proof.
  unfold accumulate. rewrite obj_set_keys.
  destruct (obj_get o k) as [v|] eqn:Hk; cbn [falsy].
  - destruct (v =? 0).
    + rewrite obj_get_set, String.eqb_refl, obj_set_keys, Hk. reflexivity.
    + rewrite Hk. reflexivity.
  - rewrite obj_get_set, String.eqb_refl, obj_set_keys, Hk. reflexivity.
Qed.

Lemma tally_credited (H : list Event) (f : option (Event -> bool))
  (s : list (string * Z)) (h : Event) :
  tally H f s h
  = match credited H f h with
    | Some ks => accumulate (fst ks) (snd ks) s
    | None => s
    end.
Proof.
  unfold tally, credited.
  destruct (bool_decide (type h = Some "leave")
            && match f with None => true | Some p => p h end); [|reflexivity].
  destruct (List.find (joins_for h) H); reflexivity.
Qed.














(** ** The rows of a leaderboard *)

Lemma accumulate_NoDup (o : list (string * Z)) (k : string) (d : Z) :
  NoDup (map fst o) -> NoDup (map fst (accumulate k d o)).
Proof.
  intros Hnd. rewrite accumulate_keys.
  destruct (obj_get o k) eqn:Hk; [exact Hnd|].
  apply NoDup_app. split; [exact Hnd|]. split.
  - intros x Hx Hxk. apply list_elem_of_singleton in Hxk as ->.
    apply obj_get_None_keys in Hk. apply Hk, list_elem_of_In, Hx.
  - apply NoDup_singleton.
Qed.

Lemma totals_NoDup (H : list Event) (f : option (Event -> bool)) :
  NoDup (map fst (totals H f)).
Proof.
  unfold totals.
  assert (Hgen : forall l s, NoDup (map fst s) ->
                   NoDup (map fst (fold_left (tally H f) l s))).
  { induction l as [|h l IH]; intros s Hs; [exact Hs|].
    cbn [fold_left]. apply IH. rewrite tally_credited.
    destruct (credited H f h); [apply accumulate_NoDup|]; exact Hs. }
  apply Hgen. constructor.
Qed.

Lemma sort_insert_perm {A : Type} (cmp : A -> A -> Z) (x : A) (l : list A) :
  Permutation (sort_insert cmp x l) (x :: l).
Proof.
  induction l as [|y l IH]; cbn [sort_insert]; [reflexivity|].
  destruct (0 <? cmp x y); [|reflexivity].
  rewrite IH. apply perm_swap.
Qed.

Lemma sort_perm {A : Type} (cmp : A -> A -> Z) (l : list A) :
  Permutation (sort cmp l) l.
Proof.
  induction l as [|x l IH]; [reflexivity|].
  unfold sort in *. cbn [fold_right]. rewrite sort_insert_perm, IH. reflexivity.
Qed.

(** [Object.entries] neither drops nor repeats a property. *)
Lemma Object_entries_perm {V : Type} (o : list (string * V)) :
  Permutation (Object_entries o) o.
Proof.
  unfold Object_entries. rewrite sort_perm.
  unfold index_entries, named_entries.
  induction o as [|kv o IH]; [reflexivity|].
  cbn [omap list_omap List.filter].
  destruct (array_index (fst kv)); cbn [map snd app].
  - rewrite IH. reflexivity.
  - rewrite <- Permutation_middle, IH. reflexivity.
Qed.

Lemma collate_antisym (a b : string) : collate b a = CompOpp (collate a b).
Proof.
  revert b. induction a as [|x a IH]; intros [|y b]; try reflexivity.
  cbn [collate]. rewrite (N.compare_antisym (collation_rank x)).
  destruct (N.compare (collation_rank x) (collation_rank y)); cbn [CompOpp];
    [apply IH | reflexivity | reflexivity].
Qed.

Lemma collate_trans (a b c : string) :
  collate a b <> Gt -> collate b c <> Gt -> collate a c <> Gt.
Proof.
  revert b c. induction a as [|x a IH]; intros [|y b] [|z c]; cbn [collate];
    try congruence.
  destruct (N.compare_spec (collation_rank x) (collation_rank y)) as [Hxy|Hxy|Hxy];
    destruct (N.compare_spec (collation_rank y) (collation_rank z)) as [Hyz|Hyz|Hyz];
    destruct (N.compare_spec (collation_rank x) (collation_rank z)) as [Hxz|Hxz|Hxz];
    try congruence; try lia.
  apply IH.
Qed.

Lemma sort_insert_Sorted {A : Type} (cmp : A -> A -> Z) (x : A) (l : list A) :
  (forall a b, 0 < cmp a b -> cmp b a <= 0) ->
  Sorted (fun a b => cmp a b <= 0) l ->
  Sorted (fun a b => cmp a b <= 0) (sort_insert cmp x l).
Proof.
  intros Hflip Hl. induction Hl as [|y l Hl IH Hhd]; cbn [sort_insert].
  - repeat constructor.
  - destruct (Z.ltb_spec 0 (cmp x y)) as [Hgt|Hle].
    + constructor; [exact IH|].
      destruct l as [|z l]; cbn [sort_insert].
      * constructor. apply Hflip, Hgt.
      * destruct (0 <? cmp x z); constructor;
          [inversion Hhd; assumption | apply Hflip, Hgt].
    + constructor; [constructor; assumption|]. constructor. exact Hle.
Qed.

Lemma sort_Sorted {A : Type} (cmp : A -> A -> Z) (l : list A) :
  (forall a b, 0 < cmp a b -> cmp b a <= 0) ->
  Sorted (fun a b => cmp a b <= 0) (sort cmp l).
Proof.
  intros Hflip. induction l as [|x l IH]; [constructor|].
  unfold sort in *. cbn [fold_right]. apply sort_insert_Sorted; assumption.
Qed.

Lemma ranks_before_trans : Transitive ranks_before.
Proof.
  intros a b c. unfold ranks_before, localeCompare. intros Hab Hbc.
  pose proof (collate_trans (entry_time c) (entry_time b) (entry_time a)) as Ht.
  destruct (collate (entry_time b) (entry_time a));
    destruct (collate (entry_time c) (entry_time b));
    destruct (collate (entry_time c) (entry_time a));
    try lia; exfalso; apply Ht; congruence.
Qed.

(** X9: A leaderboard lists each credited user once, with the formatted total
    of that user, and no one else; and every row stands before all the
    rows whose time collates below its own. *)
Theorem leaderboard_rows (buffer : list Event) (filterFn : option (Event -> bool)) :
  (forall e, In e (calculateVCStats buffer filterFn)
             <-> exists v, obj_get (totals buffer filterFn) (entry_user e) = Some v
                           /\ entry_time e = formatDuration v)
  /\ NoDup (map entry_user (calculateVCStats buffer filterFn))
  /\ StronglySorted ranks_before (calculateVCStats buffer filterFn).
Proof.
  set (row := fun kv : string * Z =>
                {| entry_user := fst kv; entry_time := formatDuration (snd kv) |}).
  assert (Hperm : Permutation (calculateVCStats buffer filterFn)
                              (map row (totals buffer filterFn))).
  { unfold calculateVCStats. rewrite sort_perm. fold row.
    apply Permutation_map, Object_entries_perm. }
  pose proof (totals_NoDup buffer filterFn) as Hnd.
  split; [|split].
  - intros e. rewrite Hperm, in_map_iff. split.
    + intros [[k v] [<- Hin]]. exists v. cbn [row entry_user entry_time fst snd].
      split; [apply obj_get_In; assumption | reflexivity].
    + intros [v [Hget Htime]]. exists (entry_user e, v). split.
      * destruct e as [u t]. cbn in *. subst t. reflexivity.
      * apply obj_get_In; assumption.
  - rewrite Hperm, map_map. cbn [row entry_user]. exact Hnd.
  - apply Sorted_StronglySorted; [exact ranks_before_trans|].
    unfold calculateVCStats.
    apply (sort_Sorted (fun a b => localeCompare (entry_time b) (entry_time a))).
    intros a b. unfold localeCompare.
    rewrite (collate_antisym (entry_time b) (entry_time a)).
    destruct (collate (entry_time b) (entry_time a)); cbn [CompOpp]; lia.
Qed.

(** ** More on the event processor *)

Lemma record_event_take (e : Event) (h : list Event) :
  (length h <= 100)%nat -> record_event e h = take 100 (e :: h).
Proof.
  intros Hlen. unfold record_event.
  destruct (Nat.ltb_spec 100 (length (e :: h))) as [Hgt|Hle].
  - rewrite removelast_firstn_len. cbn [length] in *.
    replace (Init.Nat.pred (S (length h))) with 100%nat by lia. reflexivity.
  - symmetry. apply take_ge. exact Hle.
Qed.

Lemma replay_history_take (evs : list (Z * Body)) (attendance : Attendance) :
  (length (history attendance) <= 100)%nat ->
  history (replay evs attendance)
  = take 100 (rev (map (fun ev => event_of (fst ev) (snd ev)) evs)
              ++ history attendance)%list.
Proof.
  intros Hlen. induction evs as [|ev evs IH] using rev_ind.
  - cbn. symmetry. apply take_ge. exact Hlen.
  - rewrite replay_snoc. unfold process. rewrite voice_event_history.
    rewrite map_app. cbn [map]. rewrite rev_unit.
    rewrite record_event_take by (rewrite IH, length_take; lia).
    rewrite IH. cbn [app]. change 100%nat with (S 99) at 1 3.
    cbn [take]. rewrite take_take. f_equal.
Qed.

(** X10: The history is the hundred most recent events, newest first: after
    replaying any sequence from the empty state it holds the last 100
    events of the sequence in reverse order, and all of them when there
    are fewer. *)
Theorem history_most_recent (evs : list (Z * Body)) :
  history (replay evs attendance0)
  = take 100 (rev (map (fun ev => event_of (fst ev) (snd ev)) evs))
  /\ length (history (replay evs attendance0)) = Nat.min 100 (length evs).
Proof.
  assert (H : history (replay evs attendance0)
              = take 100 (rev (map (fun ev => event_of (fst ev) (snd ev)) evs))).
  { rewrite replay_history_take by (cbn; lia). rewrite app_nil_r. reflexivity. }
  split; [exact H|].
  rewrite H, length_take, length_rev, length_map. lia.
Qed.



(** X12: An entry of [stats] is never removed: a user who has a total keeps
    one through every later event. *)
Theorem stats_entry_kept (evs : list (Z * Body)) (attendance : Attendance)
  (k : string) (Hk : is_Some (stats attendance !! k)) :
  is_Some (stats (replay evs attendance) !! k).
Proof.
  induction evs as [|ev evs IH] using rev_ind; [exact Hk|].
  rewrite replay_snoc.
  destruct (process_stats k ev (replay evs attendance))
    as [(_ & _ & s & _ & ->) | ->]; [eexists; reflexivity | exact IH].
Qed.

Lemma stats_entry_kept_witness :
  is_Some (stats (replay [(0, join (Some "Alice") None);
                          (4000, leave (Some "Alice") None)] attendance0)
           !! "Alice")
  /\ is_Some (stats (replay [(9000, leave (Some "Alice") None);
                             (9500, join (Some "Bob") None)]
                            (replay [(0, join (Some "Alice") None);
                                     (4000, leave (Some "Alice") None)]
                                    attendance0)) !! "Alice").
Proof.
  assert (H : is_Some (stats (replay [(0, join (Some "Alice") None);
                                      (4000, leave (Some "Alice") None)]
                                     attendance0) !! "Alice"))
    by (exists 4; vm_compute; reflexivity).
  split; [exact H|].
  exact (stats_entry_kept [(9000, leave (Some "Alice") None);
                           (9500, join (Some "Bob") None)] _ "Alice" H).
Defined.

(** X13: Events of other users leave a user's session and total untouched. *)
Theorem other_users_events (evs : list (Z * Body)) (attendance : Attendance)
  (k : string) (Hevs : Forall (fun ev => req_key ev <> k) evs) :
  active (replay evs attendance) !! k = active attendance !! k
  /\ stats (replay evs attendance) !! k = stats attendance !! k.
Proof.
  apply replay_other. eapply Forall_impl; [exact Hevs|].
  intros ev Hne Heq. contradiction.
Qed.

Lemma other_users_events_witness :
  Forall (fun ev => req_key ev <> "Alice")
         [(5000, join (Some "Bob") None); (7000, leave (Some "Bob") None)]
  /\ active (replay [(5000, join (Some "Bob") None);
                     (7000, leave (Some "Bob") None)]
                    (replay [(0, join (Some "Alice") None)] attendance0))
     !! "Alice"
     = active (replay [(0, join (Some "Alice") None)] attendance0) !! "Alice".
Proof.
  assert (H : Forall (fun ev => req_key ev <> "Alice")
                [(5000, join (Some "Bob") None); (7000, leave (Some "Bob") None)])
    by (repeat constructor; intros Heq; vm_compute in Heq; discriminate).
  split; [exact H|].
  exact (proj1 (other_users_events _ _ "Alice" H)).
Defined.

(** ** Cumulative totals against leaderboard totals *)










(** ** The export against the leaderboards *)

Lemma fold_export_tally (H l : list Event) (s : list (string * Z)) :
  fold_left (export_tally H) l s = fold_left (tally H None) l s.
Proof.
  revert s. induction l as [|h l IH]; intros s; [reflexivity|].
  cbn [fold_left]. rewrite export_tally_tally. apply IH.
Qed.

(** X16: The sheet of the export holds the totals of the windowed buffer, one
    row per user in the order of [Object.entries]; sorting the rows gives
    the all-time leaderboard of that buffer.  Any type other than [daily]
    and [weekly] applies no window. *)
Theorem export_rows (type : string) (today weekStart : Z) (attendance : Attendance) :
  let kept := windowed (export_window type today weekStart) (history attendance) in
  rows (export_xlsx type today weekStart attendance)
  = map (fun kv => {| entry_user := fst kv;
                      entry_time := formatDuration (snd kv) |})
        (Object_entries (totals kept None))
  /\ calculateVCStats kept None
     = sort (fun a b => localeCompare (entry_time b) (entry_time a))
            (rows (export_xlsx type today weekStart attendance))
  /\ (type <> "daily" -> type <> "weekly" -> kept = history attendance).
Proof.
  intros kept.
  assert (Hrows : rows (export_xlsx type today weekStart attendance)
                  = map (fun kv => {| entry_user := fst kv;
                                      entry_time := formatDuration (snd kv) |})
                        (Object_entries (totals kept None))).
  { subst kept. unfold export_xlsx, export_window, windowed, totals.
    cbn [rows].
    destruct (String.eqb type "daily");
      [|destruct (String.eqb type "weekly")];
      rewrite fold_export_tally; reflexivity. }
  split; [exact Hrows|]. split.
  - rewrite Hrows. reflexivity.
  - intros Hd Hw. subst kept. unfold export_window.
    destruct (String.eqb_spec type "daily"); [contradiction|].
    destruct (String.eqb_spec type "weekly"); [contradiction|].
    reflexivity.
Qed.





(** ** The voice-state listener *)

Lemma or_else_nonempty (name : option string) (fallback : string) :
  fallback <> "" -> or_else name fallback <> "".
Proof.
  intros Hf. unfold or_else. destruct name as [n|]; [|exact Hf].
  destruct (String.eqb_spec n ""); assumption.
Qed.

(** X18: One update makes the listener post at most one event, and none at all
    when the member was in the tracked channel both before and after or
    neither before nor after, when the update is of another guild, or when
    the user name is missing or empty. *)
Theorem listener_at_most_one (GUILD_ID VOICE_CHANNEL_ID : option string)
  (oldState newState : VoiceState) :
  let sent := onVoiceStateUpdate GUILD_ID VOICE_CHANNEL_ID oldState newState in
  (length sent <= 1)%nat
  /\ (same_id (channelId oldState) VOICE_CHANNEL_ID
      = same_id (channelId newState) VOICE_CHANNEL_ID -> sent = [])
  /\ (same_id (Some (guild_id newState)) GUILD_ID = false -> sent = [])
  /\ (member_username newState = None \/ member_username newState = Some ""
      -> sent = []).
Proof.
  intros sent. subst sent. unfold onVoiceStateUpdate.
  destruct (member_username newState) as [user|]; cbn [length];
    [|repeat split; auto with arith].
  destruct (String.eqb_spec user "") as [->|Hu]; cbn [length];
    [repeat split; auto with arith|].
  destruct (same_id (Some (guild_id newState)) GUILD_ID); cbn [negb length];
    [|repeat split; auto with arith].
  destruct (same_id (channelId newState) VOICE_CHANNEL_ID);
    destruct (same_id (channelId oldState) VOICE_CHANNEL_ID);
    cbn [andb negb app length]; repeat split; auto with arith;
    try discriminate; intros [H|H]; congruence.
Qed.

(** X19: Whatever the listener posts is a well-formed event: a join or a leave,
    with the non-empty user name of the member and a non-empty channel
    name ([VC] when the channel has none).  A join is posted only on
    entering the tracked channel and a leave only on leaving it. *)
Theorem listener_bodies (GUILD_ID VOICE_CHANNEL_ID : option string)
  (oldState newState : VoiceState) :
  Forall (fun body =>
            exists user c,
              member_username newState = Some user /\ user <> ""
              /\ req_user body = Some user
              /\ req_channel body = Some c /\ c <> ""
              /\ same_id (Some (guild_id newState)) GUILD_ID = true
              /\ ((req_type body = Some "join"
                   /\ same_id (channelId newState) VOICE_CHANNEL_ID = true
                   /\ same_id (channelId oldState) VOICE_CHANNEL_ID = false)
                  \/ (req_type body = Some "leave"
                      /\ same_id (channelId oldState) VOICE_CHANNEL_ID = true
                      /\ same_id (channelId newState) VOICE_CHANNEL_ID = false)))
         (onVoiceStateUpdate GUILD_ID VOICE_CHANNEL_ID oldState newState).
Proof.
  unfold onVoiceStateUpdate.
  destruct (member_username newState) as [user|]; [|constructor].
  destruct (String.eqb_spec user "") as [->|Hu]; [constructor|].
  destruct (same_id (Some (guild_id newState)) GUILD_ID); cbn [negb];
    [|constructor].
  assert (Hvc : forall name, or_else name "VC" <> "")
    by (intros name; apply or_else_nonempty; discriminate).
  destruct (same_id (channelId newState) VOICE_CHANNEL_ID);
    destruct (same_id (channelId oldState) VOICE_CHANNEL_ID);
    cbn [andb negb app].
  - constructor.
  - constructor; [|constructor].
    exists user, (or_else (channel_name newState) "VC").
    cbn [req_user req_channel req_type]. repeat split; auto.
  - constructor; [|constructor].
    exists user, (or_else (channel_name oldState) "VC").
    cbn [req_user req_channel req_type]. repeat split; auto.
  - constructor.
Qed.







(** ** Events a leaderboard ignores *)

Lemma find_filter_keeps (Q P : Event -> bool) (H : list Event) :
  (forall x, Q x = true -> P x = true) ->
  List.find Q (List.filter P H) = List.find Q H.
Proof.
  intros HQP. induction H as [|x H IH]; [reflexivity|].
  cbn [List.filter List.find]. destruct (Q x) eqn:HQ.
  - rewrite (HQP x HQ). cbn [List.find]. rewrite HQ. reflexivity.
  - destruct (P x); cbn [List.find]; rewrite ?HQ; exact IH.
Qed.

(** X21: Events that are neither joins nor leaves (and the channel of any
    event) play no part in a leaderboard: dropping them from the buffer
    leaves every leaderboard as it was. *)
Theorem leaderboard_ignores_other_types (buffer : list Event)
  (filterFn : option (Event -> bool)) :
  calculateVCStats
    (List.filter (fun e => bool_decide (type e = Some "join")
                           || bool_decide (type e = Some "leave")) buffer)
    filterFn
  = calculateVCStats buffer filterFn.
Proof.
  set (P := fun e : Event => bool_decide (type e = Some "join")
                             || bool_decide (type e = Some "leave")).
  assert (Htally : forall s h, tally (List.filter P buffer) filterFn s h
                               = tally buffer filterFn s h).
  { intros s h. unfold tally. rewrite find_filter_keeps; [reflexivity|].
    intros x Hx. unfold joins_for in Hx.
    apply andb_prop in Hx as [Hx _]. apply andb_prop in Hx as [_ Hx].
    subst P. cbv beta. rewrite Hx. reflexivity. }
  unfold calculateVCStats, totals. do 3 f_equal.
  generalize (@nil (string * Z)) as s.
  generalize buffer at 2 4 as l.
  induction l as [|h l IH]; intros s; [reflexivity|].
  cbn [List.filter fold_left]. destruct (P h) eqn:HP.
  - cbn [fold_left]. rewrite Htally. apply IH.
  - rewrite IH. f_equal. symmetry. apply tally_not_leave.
    intros Hty. subst P. cbv beta in HP.
    rewrite (bool_decide_eq_true_2 _ Hty), orb_true_r in HP. discriminate.
Qed.
